(** * Portfolio Analyzer: the request handlers of [portfolio_app.py]

    A shallow embedding of the four JSON endpoints of the application
    ([get_portfolio], [upload_portfolio], [get_market_data] and
    [get_recommendations]) over an explicit database state, followed by the
    properties of the recommendation rule chain, of the portfolio summary,
    of the CSV upload and of the market-data refresh.

    Numbers.  The [REAL] columns of the two tables are read by pandas as
    binary64 values, and the handlers compute on them with the ordinary
    binary64 operations.  They are modelled by Rocq's primitive [float], so
    every concrete evaluation below is an IEEE 754 evaluation, and a [NULL]
    of a [REAL] column is the [nan] pandas reads it as.

    Outside the model: the surrogate columns [id] and [date_added] that
    SQLite fills in by itself, the timestamps [generated_at] and
    [last_updated] of the responses, and the pause between two quote
    requests. *)

From Stdlib Require Import ZArith Floats Uint63 String Ascii List Bool Lia.
From Stdlib Require Import DecimalString Sorting.Sorted Sorting.Permutation.
Import ListNotations.

Open Scope string_scope.
Open Scope float_scope.

(* ================================================================= *)
(** ** Python and numpy number formatting *)

(** [n / d] rounded to the nearest integer, a tie going to the even one
    ([0 <= n], [0 < d]). *)
Definition round_half_even (n d : Z) : Z :=
  let q := (n / d)%Z in
  match (2 * (n mod d) ?= d)%Z with
  | Lt => q
  | Gt => (q + 1)%Z
  | Eq => if Z.even q then q else (q + 1)%Z
  end.

(** The integer nearest to [m * 2^e * k], from the exact value of the
    binary64 number of mantissa [m] and exponent [e]. *)
Definition scaled (k : Z) (m : positive) (e : Z) : Z :=
  if (0 <=? e)%Z then (Z.pos m * 2 ^ e * k)%Z
  else round_half_even (Z.pos m * k) (2 ^ (- e)).

Definition digits (n : Z) : string :=
  NilZero.string_of_uint (N.to_uint (Z.to_N n)).

(** [f'{x:.1f}']: CPython prints the exact binary value, correctly rounded
    to one decimal. *)
Definition format_1f (x : float) : string :=
  match Prim2SF x with
  | S754_nan => "nan"
  | S754_infinity s => if s then "-inf" else "inf"
  | S754_zero s => (if s then "-" else "") ++ "0.0"
  | S754_finite s m e =>
      let n := scaled 10 m e in
      (if s then "-" else "") ++ digits (n / 10) ++ "." ++ digits (n mod 10)
  end.

(** [round(x, 2)] on a Python [float]: the exact value rounded half-even to
    two decimals, then the binary64 number nearest to that decimal.  Below
    [2^53] hundredths the quotient of two exact binary64 numbers is that
    nearest number; from there on the spacing of binary64 exceeds [0.01] and
    [x] is its own rounding. *)
Definition py_round2 (x : float) : float :=
  match Prim2SF x with
  | S754_finite s m e =>
      let n := scaled 100 m e in
      if (n <? 2 ^ 53)%Z then
        let r := of_uint63 (Uint63.of_Z n) / 100 in
        if s then - r else r
      else x
  | _ => x
  end.

Definition two52 : float := 4503599627370496.

(** C's [rint] in the default rounding mode: the nearest integral value,
    ties to even, with the sign of the argument. *)
Definition rint (y : float) : float :=
  if abs y <? two52 then
    let r := (abs y + two52) - two52 in
    if get_sign y then - r else r
  else y.

(** [round(x, 2)] on a [numpy.float64], which is what a pandas column sum
    is: numpy scales, rounds to an integer and scales back, all in
    binary64. *)
Definition np_round2 (x : float) : float := rint (x * 100) / 100.

(* ================================================================= *)
(** ** The data model *)

(** A row of the [holdings] table (the columns the handlers read or
    write). *)
Module Holding.
Record t := mk
  { ticker : string;
    exchange : string;
    currency : string;
    start_value : float;
    end_value : float;
    start_price : float;
    end_price : float;
    dividends : float;
    fees : float }.
End Holding.

(** A quote, as a value of the [market_data] dictionary of
    [get_market_data] and as the data columns of the [market_data] table. *)
Module Quote.
Record t := mk
  { price : float;
    change : float;
    volume : Z;
    market_cap : float }.
End Quote.

(** The SQLite database [portfolio.db]: its two tables. *)
Module DB.
Record t := mk
  { holdings : list Holding.t;
    market_data : list (string * Quote.t) }.
End DB.

(** What a handler returns: [jsonify(body)] alone is status 200,
    [jsonify(body), 400] is status 400. *)
Record Response (B : Type) := respond { status : Z; body : B }.
Arguments respond {B} status body.
Arguments status {B} r.
Arguments body {B} r.

Definition ok {B : Type} (b : B) : Response B := respond 200%Z b.
Definition bad_request {B : Type} (b : B) : Response B := respond 400%Z b.

(** A computation that returns or raises a Python exception, kept as the
    text [str(e)] of the exception. *)
Inductive result (A : Type) : Type :=
| Return (a : A)
| Raise (e : string).
Arguments Return {A} a.
Arguments Raise {A} e.

Definition bind {A B : Type} (c : result A) (k : A -> result B) : result B :=
  match c with
  | Return a => k a
  | Raise e => Raise e
  end.

Notation "x <- c ;; k" := (bind c (fun x => k))
  (at level 61, c at next level, right associativity).

(* ================================================================= *)
(** ** [get_recommendations] *)

Module Advice.
(** The dictionary [rec] of the rule chain. *)
Record t := mk
  { recommendation : string;
    action : string;
    rationale : string }.
End Advice.

Module Recommendation.
(** An element of the list [recommendations]. *)
Record t := mk
  { ticker : string;
    current_value : float;
    return_percentage : float;
    recommendation : string;
    action : string;
    rationale : string }.
End Recommendation.

(** [x in xs] on a list of strings. *)
Definition str_in (x : string) (xs : list string) : bool :=
  existsb (String.eqb x) xs.

(** "Calculate return". *)
Definition return_pct (start_value end_value : float) : float :=
  if 0 <? start_value then ((end_value - start_value) / start_value) * 100
  else if end_value =? 0 then 0 else 100.

(** "Generate recommendation": the [if]/[elif] chain. *)
Definition generate_recommendation
    (ticker : string) (start_value end_value return_pct : float) : Advice.t :=
  if (end_value =? 0) && (0 <? start_value) then
    Advice.mk "CLOSED" "Position Closed" "Position has been exited"
  else if str_in ticker ["SMH"] && (100 <? return_pct) then
    Advice.mk "SELL" "Take Profits"
      ("Exceptional gain of " ++ format_1f return_pct
         ++ "%. Lock in 50-70% profits")
  else if str_in ticker ["QQQ"] && (60 <? return_pct) then
    Advice.mk "SELL" "Reduce Position"
      ("Strong gain of " ++ format_1f return_pct ++ "%. Reduce by 40%")
  else if str_in ticker ["SPK"] && (return_pct <? -30) then
    Advice.mk "SELL" "Cut Losses"
      ("Down " ++ format_1f (abs return_pct)
         ++ "%. Exit to prevent further losses")
  else if 50 <? return_pct then
    Advice.mk "SELL" "Take Profits"
      ("Strong gain of " ++ format_1f return_pct
         ++ "%. Consider taking partial profits")
  else if return_pct <? -20 then
    Advice.mk "SELL" "Review Position"
      ("Down " ++ format_1f (abs return_pct)
         ++ "%. Review investment thesis")
  else if 20 <? return_pct then
    Advice.mk "HOLD" "Monitor Winner"
      ("Good gain of " ++ format_1f return_pct
         ++ "%. Let winner run with trailing stop")
  else
    Advice.mk "HOLD" "Maintain" "Position within normal range".

(** The body of the loop over the holdings: one element of
    [recommendations]. *)
Definition recommend (holding : Holding.t) : Recommendation.t :=
  let ticker := Holding.ticker holding in
  let start_value := Holding.start_value holding in
  let end_value := Holding.end_value holding in
  let return_pct := return_pct start_value end_value in
  let rec := generate_recommendation ticker start_value end_value return_pct in
  Recommendation.mk ticker (py_round2 end_value) (py_round2 return_pct)
    (Advice.recommendation rec) (Advice.action rec) (Advice.rationale rec).

Module Recommendations.
(** The JSON body of [/api/recommendations]. *)
Record t := mk
  { recommendations : list Recommendation.t;
    message : option string }.
End Recommendations.

Definition get_recommendations (db : DB.t) : Response Recommendations.t :=
  match DB.holdings db with
  | [] => ok (Recommendations.mk [] (Some "No holdings found"))
  | holdings_df => ok (Recommendations.mk (map recommend holdings_df) None)
  end.

(* ================================================================= *)
(** ** [get_portfolio] *)

(** [ORDER BY end_value DESC]: SQLite compares [REAL] values numerically
    and a [NULL] is smaller than every value, so it comes last.  [a] may
    stand before [b]: *)
Definition end_value_ge (a b : Holding.t) : bool :=
  is_nan (Holding.end_value b)
  || (Holding.end_value b <=? Holding.end_value a).

Fixpoint insert_desc (h : Holding.t) (l : list Holding.t) : list Holding.t :=
  match l with
  | [] => [h]
  | x :: xs => if end_value_ge h x then h :: l else x :: insert_desc h xs
  end.

(** ["SELECT * FROM holdings ORDER BY end_value DESC"]. *)
Definition order_by_end_value_desc (rows : list Holding.t) : list Holding.t :=
  fold_right insert_desc [] rows.

(** [Series.sum()]: pandas skips the missing values (they count as [0])
    and adds up the column.  The additions are taken here from the first
    row to the last; numpy adds a column of eight rows or more in blocks,
    which can change the last digits of the sum and nothing of what is
    proved of it below. *)
Definition series_sum (xs : list float) : float :=
  fold_left (fun acc x => acc + (if is_nan x then 0 else x)) xs 0.

Module Summary.
Record t := mk
  { total_value : float;
    total_return : float;
    return_percentage : float;
    total_dividends : float;
    holdings_count : nat }.
End Summary.

Module Portfolio.
(** The JSON body of [/api/portfolio]. *)
Record t := mk
  { holdings : list Holding.t;
    summary : Summary.t }.
End Portfolio.

(** "Calculate portfolio metrics": the local variables [total_value],
    [total_start_value], [total_return], [return_pct] and
    [total_dividends], before they are rounded into the response. *)
Definition total_value (holdings_df : list Holding.t) : float :=
  series_sum (map Holding.end_value holdings_df).

Definition total_start_value (holdings_df : list Holding.t) : float :=
  series_sum (map Holding.start_value holdings_df).

Definition total_return (holdings_df : list Holding.t) : float :=
  total_value holdings_df - total_start_value holdings_df.

Definition portfolio_return_pct (holdings_df : list Holding.t) : float :=
  if 0 <? total_start_value holdings_df
  then total_return holdings_df / total_start_value holdings_df * 100
  else 0.

Definition total_dividends (holdings_df : list Holding.t) : float :=
  series_sum (map Holding.dividends holdings_df).

Definition get_portfolio (db : DB.t) : Response Portfolio.t :=
  let holdings_df := order_by_end_value_desc (DB.holdings db) in
  match holdings_df with
  | [] => ok (Portfolio.mk [] (Summary.mk 0 0 0 0 0))
  | _ =>
      ok (Portfolio.mk holdings_df
            (Summary.mk
               (np_round2 (total_value holdings_df))
               (np_round2 (total_return holdings_df))
               (np_round2 (portfolio_return_pct holdings_df))
               (np_round2 (total_dividends holdings_df))
               (length holdings_df)))
  end.

(* ================================================================= *)
(** ** [upload_portfolio] *)

(** A value of a cell of the uploaded frame, and so a parameter bound to
    the [INSERT] statement: text, or a number (a missing cell is [nan]).
    [row.get] on a label that several columns carry gives the series of
    their values. *)
#[local] Unset Elimination Schemes.
Inductive pyval : Type :=
| PStr (s : string)
| PNum (x : float)
| PSeries (values : list pyval).
#[local] Set Elimination Schemes.

Module DataFrame.
Record t := mk
  { columns : list string;
    data : list (list pyval) }.
End DataFrame.

(** [len(df)]. *)
Definition len (df : DataFrame.t) : nat := length (DataFrame.data df).

Module FileStorage.
Record t := mk
  { filename : string;
    stream : string }.
End FileStorage.

Module Request.
(** [request.files]: the file fields of the multipart form, by name. *)
Record t := mk { files : list (string * FileStorage.t) }.
End Request.

Fixpoint files_get (key : string) (files : list (string * FileStorage.t))
  : option FileStorage.t :=
  match files with
  | [] => None
  | (k, f) :: rest => if String.eqb k key then Some f else files_get key rest
  end.

Definition column_mapping : list (string * string) :=
  [ ("Investment ticker symbol", "ticker");
    ("Exchange", "exchange");
    ("Currency", "currency");
    ("Starting investment dollar value", "start_value");
    ("Ending investment dollar value", "end_value");
    ("Starting share price", "start_price");
    ("Ending share price", "end_price");
    ("Dividends and distributions", "dividends");
    ("Transaction fees", "fees") ].

Fixpoint mapping_get (mapping : list (string * string)) (label : string)
  : string :=
  match mapping with
  | [] => label
  | (old, new) :: rest =>
      if String.eqb old label then new else mapping_get rest label
  end.

(** [df.rename(columns=mapping)]: a label outside the mapping is kept. *)
Definition rename (mapping : list (string * string)) (df : DataFrame.t)
  : DataFrame.t :=
  DataFrame.mk (map (mapping_get mapping) (DataFrame.columns df))
               (DataFrame.data df).

(** The values of the row [row] under the label [key]. *)
Fixpoint row_find (columns : list string) (row : list pyval) (key : string)
  : list pyval :=
  match columns, row with
  | c :: cs, v :: vs =>
      if String.eqb c key then v :: row_find cs vs key
      else row_find cs vs key
  | _, _ => []
  end.

(** [row.get(key, default)] on a row of the frame of columns [columns]. *)
Definition row_get (columns : list string) (row : list pyval)
    (key : string) (default : pyval) : pyval :=
  match row_find columns row key with
  | [] => default
  | [v] => v
  | values => PSeries values
  end.

(** The tuple of nine parameters bound to the [INSERT] of one row. *)
Definition insert_params (columns : list string) (row : list pyval)
  : list pyval :=
  [ row_get columns row "ticker" (PStr "");
    row_get columns row "exchange" (PStr "");
    row_get columns row "currency" (PStr "USD");
    row_get columns row "start_value" (PNum 0);
    row_get columns row "end_value" (PNum 0);
    row_get columns row "start_price" (PNum 0);
    row_get columns row "end_price" (PNum 0);
    row_get columns row "dividends" (PNum 0);
    row_get columns row "fees" (PNum 0) ].

Module Upload.
(** The JSON bodies of [/api/upload]. *)
Inductive t : Type :=
| uploaded (message : string) (holdings_count : nat)
| error (error : string).
End Upload.

Section UploadPortfolio.

(** [pd.read_csv(file)] on the uploaded stream: the frame, or the
    exception pandas raises on a file it cannot parse. *)
Variable read_csv : string -> result DataFrame.t.

(** [cursor.execute('INSERT INTO holdings ... VALUES (?, ..., ?)', params)]:
    the row SQLite stores for the nine bound values, or the exception
    the statement raises (a [NOT NULL] violation, a value it cannot
    bind). *)
Variable execute_insert : list pyval -> result Holding.t.

(** The loop [for _, row in df.iterrows()] on the table [table], the
    inserts of the transaction so far. *)
Fixpoint insert_rows (columns : list string) (rows : list (list pyval))
    (table : list Holding.t) : result (list Holding.t) :=
  match rows with
  | [] => Return table
  | row :: rest =>
      stored <- execute_insert (insert_params columns row) ;;
      insert_rows columns rest (table ++ [stored])%list
  end.

(** The [try] block: the holdings table to commit and the frame that was
    read, or the exception that left the block.  ["DELETE FROM holdings"]
    empties the table before the first insert. *)
Definition try_upload (file : FileStorage.t)
  : result (list Holding.t * DataFrame.t) :=
  df <- read_csv (FileStorage.stream file) ;;
  let df := rename column_mapping df in
  table <- insert_rows (DataFrame.columns df) (DataFrame.data df) [] ;;
  Return (table, df).

(** The handler.  An exception leaves the [try] block before
    [conn.commit()]: the connection is dropped with its transaction
    open, and SQLite keeps the table as it was. *)
Definition upload_portfolio (request : Request.t) (db : DB.t)
  : Response Upload.t * DB.t :=
  match files_get "file" (Request.files request) with
  | None => (bad_request (Upload.error "No file provided"), db)
  | Some file =>
      if String.eqb (FileStorage.filename file) "" then
        (bad_request (Upload.error "No file selected"), db)
      else
        match try_upload file with
        | Return (table, df) =>
            (ok (Upload.uploaded "Portfolio uploaded successfully" (len df)),
             DB.mk table (DB.market_data db))
        | Raise e => (bad_request (Upload.error e), db)
        end
  end.

End UploadPortfolio.

(* ================================================================= *)
(** ** [get_market_data] *)

Module Info.
(** The keys of [stock.info] the handler reads, each present or not. *)
Record t := mk
  { regularMarketPrice : option float;
    previousClose : option float;
    regularMarketVolume : option Z;
    marketCap : option float }.
End Info.

(** [d.get(key, default)]. *)
Definition get {A : Type} (field : option A) (default : A) : A :=
  match field with
  | Some v => v
  | None => default
  end.

(** The truth value of a Python float: every value but zero. *)
Definition truthy (x : float) : bool := negb (x =? 0).

(** The dictionary built in the [try] block from [info]. *)
Definition quote_of_info (info : Info.t) : Quote.t :=
  let current_price :=
    get (Info.regularMarketPrice info) (get (Info.previousClose info) 0) in
  let prev_close := get (Info.previousClose info) current_price in
  Quote.mk current_price
    (if truthy prev_close
     then (current_price - prev_close) / prev_close * 100
     else 0)
    (get (Info.regularMarketVolume info) 0%Z)
    (get (Info.marketCap info) 0).

(** The dictionary of the [except] block. *)
Definition zero_quote : Quote.t := Quote.mk 0 0 0%Z 0.

(** [d[key] = value] on a dictionary kept in insertion order. *)
Fixpoint dict_set {V : Type} (d : list (string * V)) (key : string) (value : V)
  : list (string * V) :=
  match d with
  | [] => [(key, value)]
  | (k, v) :: rest =>
      if String.eqb k key then (k, value) :: rest
      else (k, v) :: dict_set rest key value
  end.


(** [SELECT DISTINCT]: each value once, at its first occurrence. *)
Fixpoint distinct (xs : list string) : list string :=
  match xs with
  | [] => []
  | x :: rest =>
      x :: filter (fun y => negb (String.eqb y x)) (distinct rest)
  end.

(** ["SELECT DISTINCT ticker FROM holdings WHERE end_value > 0"]. *)
Definition select_tickers (holdings : list Holding.t) : list string :=
  distinct
    (map Holding.ticker
       (filter (fun h => 0 <? Holding.end_value h) holdings)).

Module MarketData.
(** The JSON body of [/api/market-data]. *)
Record t := mk
  { market_data : list (string * Quote.t);
    message : option string }.
End MarketData.

Section GetMarketData.

(** [yf.Ticker(ticker).info]: the dictionary of the provider, or the
    exception the lookup raises. *)
Variable ticker_info : string -> result Info.t.

(** One turn of the loop "Fetch market data": the [try] block and its
    [except]. *)
Definition fetch_one (market_data : list (string * Quote.t))
    (ticker : string) : list (string * Quote.t) :=
  match ticker_info ticker with
  | Return info => dict_set market_data ticker (quote_of_info info)
  | Raise _ => dict_set market_data ticker zero_quote
  end.

Definition fetch_all (tickers : list string) : list (string * Quote.t) :=
  fold_left fetch_one tickers [].

(** The quote the loop leaves for a ticker. *)
Definition quote_for (ticker : string) : Quote.t :=
  match ticker_info ticker with
  | Return info => quote_of_info info
  | Raise _ => zero_quote
  end.

Definition get_market_data (db : DB.t) : Response MarketData.t * DB.t :=
  match select_tickers (DB.holdings db) with
  | [] => (ok (MarketData.mk [] (Some "No holdings to update")), db)
  | tickers =>
      let market_data := fetch_all tickers in
      (* DELETE FROM market_data, then one INSERT per item *)
      (ok (MarketData.mk market_data None),
       DB.mk (DB.holdings db) (fold_left (fun table item => (table ++ [item])%list)
                                         market_data []))
  end.

End GetMarketData.


(* ================================================================= *)
(** ** The order of binary64 values *)

(** The place of a number on the line, read off its sign, exponent and
    mantissa: two numbers compare as their keys do, lexicographically. *)
Definition key (f : spec_float) : Z * Z * Z :=
  match f with
  | S754_nan => (0, 0, 0)%Z
  | S754_zero _ => (0, 0, 0)%Z
  | S754_infinity s => ((if s then -2 else 2), 0, 0)%Z
  | S754_finite s m e =>
      if s then (-1, - e, - Z.pos m)%Z else (1, e, Z.pos m)%Z
  end.

Definition lex_le (a b : Z * Z * Z) : Prop :=
  let '(a1, a2, a3) := a in
  let '(b1, b2, b3) := b in
  (a1 < b1 \/ (a1 = b1 /\ (a2 < b2 \/ (a2 = b2 /\ a3 <= b3))))%Z.

(** A list of holdings in descending order of [end_value]: a row never
    stands before a row of greater [end_value], and the rows without one
    ([NULL]) are at the end. *)
Definition descending (l : list Holding.t) : Prop :=
  forall (i j : nat) (a b : Holding.t),
    (i < j)%nat -> nth_error l i = Some a -> nth_error l j = Some b ->
    is_nan (Holding.end_value b) = true
    \/ (Holding.end_value b <=? Holding.end_value a) = true.

(* ================================================================= *)
(** ** Sample data *)

Definition holding (ticker : string) (start_value end_value : float)
  : Holding.t :=
  Holding.mk ticker "NASDAQ" "USD" start_value end_value 0 0 0 0.

(** A reader that takes every stream but the empty one for the frame
    [frame]. *)
Definition sample_read_csv (frame : DataFrame.t) (stream : string)
  : result DataFrame.t :=
  if String.eqb stream "" then Raise "No columns to parse from file"
  else Return frame.

(** An [INSERT] that stores three texts and six numbers as they are, and
    raises on anything else (a missing ticker, a series). *)
Definition sample_execute_insert (params : list pyval) : result Holding.t :=
  match params with
  | [PStr t; PStr ex; PStr cur; PNum sv; PNum ev; PNum sp; PNum ep;
     PNum d; PNum f] => Return (Holding.mk t ex cur sv ev sp ep d f)
  | _ => Raise "Error binding parameter"
  end.

(** A provider that knows no quote for ["SPK"]. *)
Definition sample_ticker_info (ticker : string) : result Info.t :=
  if String.eqb ticker "SPK" then Raise "HTTP Error 404: Not Found"
  else Return (Info.mk (Some 101) (Some 100) (Some 5000%Z) None).

Definition sample_frame : DataFrame.t :=
  DataFrame.mk
    [ "Investment ticker symbol"; "Exchange";
      "Starting investment dollar value"; "Ending investment dollar value";
      "Tax lot" ]
    [ [PStr "SMH"; PStr "NASDAQ"; PNum 100; PNum 250; PStr "a"];
      [PStr "QQQ"; PStr "NASDAQ"; PNum 1000; PNum 900; PStr "b"];
      [PStr "SPK"; PStr "NZX"; PNum 500; PNum 0; PStr "c"] ].

Definition sample_db : DB.t :=
  DB.mk
    [ holding "AAPL" 1000 1200; holding "SPK" 1000 650;
      holding "XYZ" 1000 0; holding "SMH" 100 250;
      holding "AAPL" 10 20 ]
    [ ("OLD", zero_quote) ].

Definition sample_request : Request.t :=
  Request.mk [ ("file", FileStorage.mk "portfolio.csv" "a,b") ].

(** A frame whose second row has no ticker. *)
Definition sample_frame_missing_ticker : DataFrame.t :=
  DataFrame.mk
    [ "Investment ticker symbol"; "Ending investment dollar value" ]
    [ [PStr "SMH"; PNum 250]; [PNum nan; PNum 900] ].


(* ================================================================= *)
(** ** The bound values of an [INSERT], field by field *)

Definition lex_lt (a b : Z * Z * Z) : Prop :=
  let '(a1, a2, a3) := a in
  let '(b1, b2, b3) := b in
  (a1 < b1 \/ (a1 = b1 /\ (a2 < b2 \/ (a2 = b2 /\ a3 < b3))))%Z.

(** The nine [row.get(key, default)] of the [INSERT], in the order of its
    parameters. *)
Definition insert_fields : list (string * pyval) :=
  [ ("ticker", PStr ""); ("exchange", PStr ""); ("currency", PStr "USD");
    ("start_value", PNum 0); ("end_value", PNum 0);
    ("start_price", PNum 0); ("end_price", PNum 0);
    ("dividends", PNum 0); ("fees", PNum 0) ].

Definition is_field (label : string) : bool :=
  str_in label (map fst insert_fields).

(** The columns of a row whose label is one of the nine fields, with
    their values. *)
Definition field_columns (columns : list string) (row : list pyval)
  : list (string * pyval) :=
  filter (fun cell => is_field (fst cell)) (combine columns row).

(* ================================================================= *)
(** ** The dashboard script: the charts of [updateCharts] *)

(** The array [colors] of [generateColors]. *)
Definition palette : list string :=
  [ "#4cc9f0"; "#7209b7"; "#f72585"; "#4361ee"; "#3a0ca3";
    "#560bad"; "#480ca8"; "#3f37c9"; "#b5179e"; "#f72585" ].

(** The loop [while (colors.length < count)], which appends
    [colors.slice(0, count - colors.length)].  It is run for at most [fuel]
    turns; every turn on a non-empty array makes it longer, so [count]
    turns are enough from [palette]. *)
Fixpoint repeat_colors (fuel : nat) (colors : list string) (count : nat)
  : list string :=
  if (length colors <? count)%nat then
    match fuel with
    | O => colors
    | S fuel' =>
        repeat_colors fuel'
          (colors ++ firstn (count - length colors) colors)%list count
    end
  else colors.

Definition generateColors (count : nat) : list string :=
  firstn count (repeat_colors count palette count).

(** The colours of an array repeat the palette. *)
Definition cyclic (colors : list string) : Prop :=
  forall i : nat,
    (i < length colors)%nat ->
    nth_error colors i = nth_error palette (i mod 10).

Module Chart.
(** What a chart is built from: its labels and, for its one dataset, the
    values and the colours. *)
Record t := mk
  { labels : list string;
    data : list float;
    backgroundColor : list string }.
End Chart.

(** "Allocation Chart". *)
Definition allocation_chart (holdings : list Holding.t) : Chart.t :=
  let holdings := filter (fun h => 0 <? Holding.end_value h) holdings in
  Chart.mk (map Holding.ticker holdings)
           (map Holding.end_value holdings)
           (generateColors (length holdings)).

(** The return of a bar of the "Performance Chart". *)
Definition chart_return (h : Holding.t) : float :=
  if 0 <? Holding.start_value h
  then (Holding.end_value h - Holding.start_value h)
       / Holding.start_value h * 100
  else 0.

Definition bar_color (r : float) : string :=
  if 0 <=? r then "rgba(74, 222, 128, 0.8)" else "rgba(248, 113, 113, 0.8)".

(** "Performance Chart". *)
Definition performance_chart (holdings : list Holding.t) : Chart.t :=
  let returns := map chart_return holdings in
  Chart.mk (map Holding.ticker holdings) returns (map bar_color returns).

(** [updateCharts]: the two charts drawn from [currentPortfolio], none
    while it is [null]. *)
Definition updateCharts (currentPortfolio : option Portfolio.t)
  : option (Chart.t * Chart.t) :=
  match currentPortfolio with
  | None => None
  | Some portfolio =>
      Some (allocation_chart (Portfolio.holdings portfolio),
            performance_chart (Portfolio.holdings portfolio))
  end.

(** A frame with its header and no row. *)
Definition sample_frame_no_rows : DataFrame.t :=
  DataFrame.mk
    [ "Investment ticker symbol"; "Ending investment dollar value" ] [].

(* ================================================================= *)
(** * Properties *)

(** ** Comparisons of binary64 values *)

Lemma zero_spec : Prim2SF 0 = S754_zero false.
Proof. reflexivity. Qed.

Lemma eq_zero_not_positive (x : float) : (x =? 0) = true -> (0 <? x) = false.
Proof.
  rewrite FloatAxioms.eqb_spec, FloatAxioms.ltb_spec, zero_spec.
  unfold SFeqb, SFltb.
  destruct (Prim2SF x) as [s|s| |s m e]; simpl; try destruct s; congruence.
Qed.

Lemma positive_not_zero (x : float) : (0 <? x) = true -> (x =? 0) = false.
Proof.
  intros H. destruct (x =? 0) eqn:E; [|reflexivity].
  apply eq_zero_not_positive in E. congruence.
Qed.

(* ================================================================= *)
(** ** The recommendation engine *)

Lemma recommend_advice (h : Holding.t) :
  let rp := return_pct (Holding.start_value h) (Holding.end_value h) in
  let rec := generate_recommendation (Holding.ticker h)
               (Holding.start_value h) (Holding.end_value h) rp in
  recommend h =
  Recommendation.mk (Holding.ticker h)
    (py_round2 (Holding.end_value h)) (py_round2 rp)
    (Advice.recommendation rec) (Advice.action rec) (Advice.rationale rec).
Proof. reflexivity. Qed.

(** C1. The rule chain stops at the first rule that matches.  A holding of
    ticker "SMH" with positive start and end values whose return is 150
    satisfies the condition of the SMH rule and that of the generic
    [return_pct > 50] rule; it is answered by the SMH rule: SELL,
    "Take Profits", with the rationale of that rule and not the generic
    one. *)
Theorem smh_rule_wins_over_generic (h : Holding.t) :
  Holding.ticker h = "SMH" ->
  (0 <? Holding.start_value h) = true ->
  (0 <? Holding.end_value h) = true ->
  return_pct (Holding.start_value h) (Holding.end_value h) = 150 ->
  (str_in (Holding.ticker h) ["SMH"] && (100 <? 150) = true
   /\ (50 <? 150) = true)
  /\ Recommendation.recommendation (recommend h) = "SELL"
  /\ Recommendation.action (recommend h) = "Take Profits"
  /\ Recommendation.rationale (recommend h)
     = "Exceptional gain of 150.0%. Lock in 50-70% profits"
  /\ Recommendation.rationale (recommend h)
     <> "Strong gain of 150.0%. Consider taking partial profits".
Proof.
  intros Hticker Hstart Hend Hreturn.
  rewrite recommend_advice; cbv zeta.
  rewrite Hreturn, Hticker.
  unfold generate_recommendation.
  rewrite (positive_not_zero _ Hend).
  change (false && (0 <? Holding.start_value h)) with false.
  cbv iota.
  replace (str_in "SMH" ["SMH"] && (100 <? 150)) with true by reflexivity.
  repeat split; try reflexivity.
  cbn [Recommendation.rationale Advice.rationale].
  intros Heq. vm_compute in Heq. discriminate Heq.
Qed.

(** The holding SMH bought at 100 and worth 250 is such a holding. *)
Lemma smh_rule_wins_over_generic_witness :
  ((0 <? 100) = true /\ (0 <? 250) = true /\ return_pct 100 250 = 150)
  /\ Recommendation.action (recommend (holding "SMH" 100 250))
     = "Take Profits"
  /\ Recommendation.rationale (recommend (holding "SMH" 100 250))
     = "Exceptional gain of 150.0%. Lock in 50-70% profits".
Proof.
  split; [repeat split|].
  destruct (smh_rule_wins_over_generic (holding "SMH" 100 250))
    as (_ & _ & Haction & Hrationale & _); try reflexivity.
  split; assumption.
Defined.

(** The generic rule alone answers the same return for another ticker:
    it is the position in the chain, not the return, that selects the
    rationale. *)
Example generic_rule_for_other_ticker :
  Recommendation.rationale (recommend (holding "IBM" 100 250))
  = "Strong gain of 150.0%. Consider taking partial profits".
Proof. reflexivity. Qed.

(** C2, with a reported return of 0.0, does not hold: the closed position
    XYZ (1000 at the start, 0 at the end) is CLOSED, "Position Closed", but
    its [return_percentage] is not 0.0. *)
Lemma closed_position_return_not_zero :
  ~ (Recommendation.recommendation (recommend (holding "XYZ" 1000 0))
     = "CLOSED"
     /\ Recommendation.action (recommend (holding "XYZ" 1000 0))
        = "Position Closed"
     /\ Recommendation.return_percentage (recommend (holding "XYZ" 1000 0))
        = 0).
Proof.
  intros (_ & _ & Hzero).
  apply (f_equal (fun x => x =? 0)) in Hzero.
  vm_compute in Hzero. discriminate Hzero.
Qed.

(** C2, with the return the code reports.  A holding XYZ of start value
    1000 and end value 0 is answered by the endpoint with CLOSED,
    "Position Closed", and the return it reports is the one of the formula,
    -100.0: the return is computed before the rule chain and the CLOSED rule
    does not reset it. *)
Theorem closed_position_reports_formula_return (db : DB.t) (h : Holding.t) :
  In h (DB.holdings db) ->
  Holding.ticker h = "XYZ" ->
  Holding.start_value h = 1000 ->
  Holding.end_value h = 0 ->
  status (get_recommendations db) = 200%Z
  /\ exists r : Recommendation.t,
       In r (Recommendations.recommendations (body (get_recommendations db)))
       /\ Recommendation.ticker r = "XYZ"
       /\ Recommendation.recommendation r = "CLOSED"
       /\ Recommendation.action r = "Position Closed"
       /\ Recommendation.rationale r = "Position has been exited"
       /\ Recommendation.current_value r = 0
       /\ Recommendation.return_percentage r = -100.
Proof.
  intros Hin Hticker Hstart Hend.
  assert (Hbody : Recommendations.recommendations
                    (body (get_recommendations db))
                  = map recommend (DB.holdings db)).
  { unfold get_recommendations. destruct (DB.holdings db); reflexivity. }
  split.
  - unfold get_recommendations. destruct (DB.holdings db); reflexivity.
  - exists (recommend h). rewrite Hbody. split.
    + apply in_map, Hin.
    + rewrite recommend_advice; cbv zeta.
      rewrite Hticker, Hstart, Hend. repeat split; reflexivity.
Qed.

(** The third holding of [sample_db] is this position. *)
Lemma closed_position_reports_formula_return_witness :
  In (holding "XYZ" 1000 0) (DB.holdings sample_db)
  /\ exists r : Recommendation.t,
       In r (Recommendations.recommendations
               (body (get_recommendations sample_db)))
       /\ Recommendation.ticker r = "XYZ"
       /\ Recommendation.recommendation r = "CLOSED"
       /\ Recommendation.return_percentage r = -100.
Proof.
  assert (Hin : In (holding "XYZ" 1000 0) (DB.holdings sample_db)).
  { simpl. tauto. }
  split; [exact Hin|].
  destruct (closed_position_reports_formula_return sample_db
              (holding "XYZ" 1000 0) Hin eq_refl eq_refl eq_refl)
    as (_ & r & Hr & Ht & Hrec & _ & _ & _ & Hret).
  exists r. repeat split; assumption.
Defined.

(** Every branch of the rule chain answers CLOSED, SELL or HOLD. *)
Lemma generate_recommendation_outcomes
    (ticker : string) (start_value end_value rp : float) :
  In (Advice.recommendation
        (generate_recommendation ticker start_value end_value rp))
     ["CLOSED"; "SELL"; "HOLD"].
Proof.
  unfold generate_recommendation.
  repeat match goal with
         | |- context [if ?c then _ else _] => destruct c
         end; simpl; tauto.
Qed.

(** C4. Whatever the holdings, every recommendation of the endpoint is
    CLOSED, SELL or HOLD, and none is BUY. *)
Theorem recommendation_never_buy (db : DB.t) :
  Forall (fun r : Recommendation.t =>
            (Recommendation.recommendation r = "CLOSED"
             \/ Recommendation.recommendation r = "SELL"
             \/ Recommendation.recommendation r = "HOLD")
            /\ Recommendation.recommendation r <> "BUY")
         (Recommendations.recommendations (body (get_recommendations db))).
Proof.
  assert (Hall : forall hs : list Holding.t,
             Forall (fun r : Recommendation.t =>
                       (Recommendation.recommendation r = "CLOSED"
                        \/ Recommendation.recommendation r = "SELL"
                        \/ Recommendation.recommendation r = "HOLD")
                       /\ Recommendation.recommendation r <> "BUY")
                    (map recommend hs)).
  { induction hs as [|h hs IH]; constructor; [|exact IH].
    rewrite recommend_advice; cbv zeta.
    cbn [Recommendation.recommendation].
    pose proof (generate_recommendation_outcomes (Holding.ticker h)
                  (Holding.start_value h) (Holding.end_value h)
                  (return_pct (Holding.start_value h) (Holding.end_value h)))
      as Hout.
    simpl in Hout.
    destruct Hout as [<- | [<- | [<- | []]]];
      (split; [tauto | discriminate]). }
  unfold get_recommendations.
  destruct (DB.holdings db) as [|h hs] eqn:Hdb.
  - constructor.
  - exact (Hall (h :: hs)).
Qed.

(** C5. AAPL bought at 1000 and worth 1200: the return is exactly 20.0,
    [return_pct > 20] is false, and the chain reaches its last rule: HOLD,
    "Maintain". *)
Theorem aapl_boundary_maintain
    (exchange currency : string) (start_price end_price dividends fees : float) :
  let h := Holding.mk "AAPL" exchange currency 1000 1200
             start_price end_price dividends fees in
  return_pct (Holding.start_value h) (Holding.end_value h) = 20
  /\ (20 <? return_pct (Holding.start_value h) (Holding.end_value h)) = false
  /\ Recommendation.return_percentage (recommend h) = 20
  /\ Recommendation.recommendation (recommend h) = "HOLD"
  /\ Recommendation.action (recommend h) = "Maintain"
  /\ Recommendation.rationale (recommend h) = "Position within normal range".
Proof.
  intros h. subst h.
  rewrite recommend_advice; cbv zeta.
  cbn [Holding.ticker Holding.start_value Holding.end_value].
  assert (Hreturn : return_pct 1000 1200 = 20) by reflexivity.
  rewrite Hreturn.
  repeat split; reflexivity.
Qed.

(** Just above the boundary the seventh rule answers. *)
Example aapl_above_boundary :
  Recommendation.action (recommend (holding "AAPL" 1000 1201))
  = "Monitor Winner".
Proof. reflexivity. Qed.

(** C6. The return of a holding: the relative change in percent when the
    start value is positive; for a start value of zero, 0 when the end value
    is zero too and 100 otherwise. *)
Theorem return_pct_cases (start_value end_value : float) :
  ((0 <? start_value) = true ->
   return_pct start_value end_value
   = ((end_value - start_value) / start_value) * 100)
  /\ ((start_value =? 0) = true ->
      ((end_value =? 0) = true -> return_pct start_value end_value = 0)
      /\ ((end_value =? 0) = false -> return_pct start_value end_value = 100)).
Proof.
  unfold return_pct. split.
  - intros ->. reflexivity.
  - intros Hzero. rewrite (eq_zero_not_positive _ Hzero).
    split; intros ->; reflexivity.
Qed.

Example return_pct_samples :
  (return_pct 1000 1070 =? 7) = false
  /\ return_pct 0 0 = 0 /\ return_pct 0 5 = 100 /\ return_pct (-0) 0 = 0.
Proof. repeat split; reflexivity. Qed.

(* ================================================================= *)
(** ** The order of [ORDER BY end_value DESC] *)

Lemma SFcompare_refl (f : spec_float) :
  f <> S754_nan -> SFcompare f f = Some Eq.
Proof.
  destruct f as [s|s| |s m e]; simpl; intros H; try congruence.
  - destruct s; reflexivity.
  - rewrite Z.compare_refl.
    change (PosDef.Pos.compare_cont Eq m m) with (Pos.compare m m).
    rewrite Pos.compare_refl. destruct s; reflexivity.
Qed.

Lemma is_nan_spec (x : float) : is_nan x = true <-> Prim2SF x = S754_nan.
Proof.
  unfold is_nan. rewrite FloatAxioms.eqb_spec. unfold SFeqb. split.
  - destruct (Prim2SF x) eqn:E; try reflexivity;
      rewrite SFcompare_refl by congruence; discriminate.
  - intros ->. reflexivity.
Qed.

Lemma SFleb_key (f g : spec_float) :
  SFleb f g = true
  <-> f <> S754_nan /\ g <> S754_nan /\ lex_le (key f) (key g).
Proof.
  unfold SFleb.
  destruct f as [s|s| |s m e], g as [s'|s'| |s' m' e']; simpl;
    try (split; [discriminate | intros (Hf & Hg & _); congruence]);
    try destruct s; try destruct s'; simpl;
    try (split; [intros _; repeat split; (congruence || lia) | reflexivity]);
    try (split; [discriminate | intros (_ & _ & Hlex); lia]).
  all: change (PosDef.Pos.compare_cont Eq m m') with (Pos.compare m m').
  all: destruct (Z.compare_spec e e'); destruct (Pos.compare_spec m m'); simpl.
  all: split;
    [ first [discriminate | intros _; repeat split; (congruence || lia)]
    | first [reflexivity | intros (_ & _ & Hlex); lia] ].
Qed.

Lemma leb_key (x y : float) :
  (x <=? y) = true
  <-> is_nan x = false /\ is_nan y = false
      /\ lex_le (key (Prim2SF x)) (key (Prim2SF y)).
Proof.
  rewrite FloatAxioms.leb_spec, SFleb_key.
  assert (Hnan : forall z, Prim2SF z <> S754_nan <-> is_nan z = false).
  { intros z. rewrite <- is_nan_spec. destruct (is_nan z); split; congruence. }
  rewrite !Hnan. reflexivity.
Qed.

Lemma lex_le_total (a b : Z * Z * Z) : lex_le a b \/ lex_le b a.
Proof. destruct a as [[a1 a2] a3], b as [[b1 b2] b3]. simpl. lia. Qed.

Lemma lex_le_trans (a b c : Z * Z * Z) :
  lex_le a b -> lex_le b c -> lex_le a c.
Proof.
  destruct a as [[a1 a2] a3], b as [[b1 b2] b3], c as [[c1 c2] c3].
  simpl. lia.
Qed.

Lemma end_value_ge_total (a b : Holding.t) :
  end_value_ge a b = false -> end_value_ge b a = true.
Proof.
  unfold end_value_ge. intros H.
  apply orb_false_iff in H. destruct H as [Hb Hle].
  destruct (is_nan (Holding.end_value a)) eqn:Ha; [reflexivity|].
  simpl. apply leb_key. repeat split; try assumption.
  destruct (lex_le_total (key (Prim2SF (Holding.end_value a)))
                         (key (Prim2SF (Holding.end_value b)))) as [Hab|Hba];
    [exact Hab|].
  assert (Hle' : (Holding.end_value b <=? Holding.end_value a) = true)
    by (apply leb_key; repeat split; assumption).
  congruence.
Qed.

Lemma end_value_ge_trans (a b c : Holding.t) :
  end_value_ge a b = true -> end_value_ge b c = true ->
  end_value_ge a c = true.
Proof.
  unfold end_value_ge. intros Hab Hbc.
  destruct (is_nan (Holding.end_value c)) eqn:Hc; [reflexivity|].
  simpl in *. apply leb_key in Hbc. destruct Hbc as (_ & Hb & Hcb).
  rewrite Hb in Hab. simpl in Hab.
  apply leb_key in Hab. destruct Hab as (_ & Ha & Hba).
  apply leb_key. repeat split; try assumption.
  eapply lex_le_trans; eassumption.
Qed.

Lemma insert_desc_perm (h : Holding.t) (l : list Holding.t) :
  Permutation (insert_desc h l) (h :: l).
Proof.
  induction l as [|x xs IH]; simpl.
  - apply Permutation_refl.
  - destruct (end_value_ge h x).
    + apply Permutation_refl.
    + eapply perm_trans; [apply perm_skip, IH | apply perm_swap].
Qed.

Lemma order_by_perm (rows : list Holding.t) :
  Permutation (order_by_end_value_desc rows) rows.
Proof.
  induction rows as [|h rows IH]; simpl.
  - apply perm_nil.
  - eapply perm_trans; [apply insert_desc_perm | apply perm_skip, IH].
Qed.

Lemma insert_desc_sorted (h : Holding.t) (l : list Holding.t) :
  StronglySorted (fun a b => end_value_ge a b = true) l ->
  StronglySorted (fun a b => end_value_ge a b = true) (insert_desc h l).
Proof.
  induction l as [|x xs IH]; simpl; intros Hs.
  - constructor; constructor.
  - inversion Hs as [|? ? Hxs Hx]; subst.
    destruct (end_value_ge h x) eqn:Hhx.
    + constructor; [exact Hs|]. constructor; [exact Hhx|].
      eapply Forall_impl; [|exact Hx].
      intros c Hxc. eapply end_value_ge_trans; eassumption.
    + constructor; [apply IH, Hxs|].
      apply (Permutation_Forall (Permutation_sym (insert_desc_perm h xs))).
      constructor; [apply end_value_ge_total, Hhx | exact Hx].
Qed.

Lemma order_by_sorted (rows : list Holding.t) :
  StronglySorted (fun a b => end_value_ge a b = true)
                 (order_by_end_value_desc rows).
Proof.
  induction rows as [|h rows IH]; simpl.
  - constructor.
  - apply insert_desc_sorted, IH.
Qed.

Lemma strongly_sorted_descending (l : list Holding.t) :
  StronglySorted (fun a b => end_value_ge a b = true) l -> descending l.
Proof.
  induction 1 as [|x l Hl IH Hx]; intros i j a b Hij Hi Hj.
  - destruct i; discriminate.
  - destruct j as [|j]; [lia|]. simpl in Hj.
    destruct i as [|i]; simpl in Hi.
    + injection Hi as <-.
      apply nth_error_In in Hj.
      rewrite Forall_forall in Hx. specialize (Hx b Hj).
      unfold end_value_ge in Hx. apply orb_true_iff in Hx. exact Hx.
    + apply (IH i j a b); [lia | assumption | assumption].
Qed.

(** C10. The holdings of [/api/portfolio] are the stored holdings in
    descending order of [end_value]. *)
Theorem portfolio_holdings_descending (db : DB.t) :
  descending (Portfolio.holdings (body (get_portfolio db)))
  /\ Permutation (Portfolio.holdings (body (get_portfolio db)))
                 (DB.holdings db).
Proof.
  assert (Hbody : Portfolio.holdings (body (get_portfolio db))
                  = order_by_end_value_desc (DB.holdings db)).
  { unfold get_portfolio.
    destruct (order_by_end_value_desc (DB.holdings db)); reflexivity. }
  rewrite Hbody. split.
  - apply strongly_sorted_descending, order_by_sorted.
  - apply order_by_perm.
Qed.

Example portfolio_holdings_sample :
  map Holding.end_value (Portfolio.holdings (body (get_portfolio sample_db)))
  = [1200; 650; 250; 20; 0].
Proof. reflexivity. Qed.

(* ================================================================= *)
(** ** The portfolio summary *)

Lemma get_portfolio_body (db : DB.t) :
  let holdings_df := order_by_end_value_desc (DB.holdings db) in
  get_portfolio db =
  ok (Portfolio.mk holdings_df
        (Summary.mk
           (np_round2 (total_value holdings_df))
           (np_round2 (total_return holdings_df))
           (np_round2 (portfolio_return_pct holdings_df))
           (np_round2 (total_dividends holdings_df))
           (length holdings_df))).
Proof.
  unfold get_portfolio.
  destruct (order_by_end_value_desc (DB.holdings db)); reflexivity.
Qed.



Example portfolio_summary_sample :
  Summary.total_value (Portfolio.summary (body (get_portfolio sample_db)))
  = 2120
  /\ Summary.total_return (Portfolio.summary (body (get_portfolio sample_db)))
     = -990
  /\ Summary.holdings_count
       (Portfolio.summary (body (get_portfolio sample_db))) = 5%nat.
Proof. repeat split; reflexivity. Qed.

(* ================================================================= *)
(** ** The CSV upload *)

Section UploadFacts.

Variable read_csv : string -> result DataFrame.t.
Variable execute_insert : list pyval -> result Holding.t.

Lemma insert_rows_all (columns : list string) (rows : list (list pyval))
    (stored table : list Holding.t) :
  Forall2 (fun row h => execute_insert (insert_params columns row) = Return h)
          rows stored ->
  insert_rows execute_insert columns rows table
  = Return (table ++ stored)%list.
Proof.
  intros Hall. revert table.
  induction Hall as [|row h rows stored Hrow _ IH]; intros table; simpl.
  - rewrite app_nil_r. reflexivity.
  - rewrite Hrow. simpl. rewrite IH, <- app_assoc. reflexivity.
Qed.

(** C7. A CSV upload that succeeds replaces the holdings: whatever the
    store held, when the file is parsed as a frame of [n] rows and each row
    is inserted, the holdings table afterwards is exactly the [n] stored
    rows, in order, and the response reports [holdings_count = n]. *)
Theorem upload_replaces_holdings
    (request : Request.t) (file : FileStorage.t)
    (df : DataFrame.t) (stored : list Holding.t) :
  files_get "file" (Request.files request) = Some file ->
  FileStorage.filename file <> "" ->
  read_csv (FileStorage.stream file) = Return df ->
  Forall2 (fun row h =>
             execute_insert
               (insert_params
                  (DataFrame.columns (rename column_mapping df)) row)
             = Return h)
          (DataFrame.data df) stored ->
  (forall db : DB.t,
      upload_portfolio read_csv execute_insert request db
      = (respond 200%Z
           (Upload.uploaded "Portfolio uploaded successfully" (len df)),
         DB.mk stored (DB.market_data db)))
  /\ length stored = len df.
Proof.
  intros Hfile Hname Hparse Hrows. split.
  - intros db. unfold upload_portfolio. rewrite Hfile.
    apply String.eqb_neq in Hname. rewrite Hname.
    unfold try_upload. rewrite Hparse. simpl.
    rewrite (insert_rows_all _ _ stored []) by exact Hrows.
    reflexivity.
  - symmetry. apply (Forall2_length Hrows).
Qed.

(** C8. The upload answers 400 with an [error] body when there is no
    ['file'] field, when the file name is empty and when the file cannot
    be parsed; in each case, and so on a parse failure, the database is the
    one before the request. *)
Theorem upload_rejections (request : Request.t) (db : DB.t) :
  (files_get "file" (Request.files request) = None ->
   upload_portfolio read_csv execute_insert request db
   = (respond 400%Z (Upload.error "No file provided"), db))
  /\ (forall file : FileStorage.t,
         files_get "file" (Request.files request) = Some file ->
         FileStorage.filename file = "" ->
         upload_portfolio read_csv execute_insert request db
         = (respond 400%Z (Upload.error "No file selected"), db))
  /\ (forall (file : FileStorage.t) (e : string),
         files_get "file" (Request.files request) = Some file ->
         FileStorage.filename file <> "" ->
         read_csv (FileStorage.stream file) = Raise e ->
         upload_portfolio read_csv execute_insert request db
         = (respond 400%Z (Upload.error e), db)).
Proof.
  unfold upload_portfolio. repeat split.
  - intros ->. reflexivity.
  - intros file -> ->. reflexivity.
  - intros file e -> Hname Hparse.
    apply String.eqb_neq in Hname. rewrite Hname.
    unfold try_upload. rewrite Hparse. reflexivity.
Qed.

(** Whatever the request, the upload answers 200 or 400, and a 400 leaves
    the database as it was: this covers an [INSERT] that raises after the
    [DELETE]. *)
Lemma upload_status (request : Request.t) (db : DB.t) :
  (status (fst (upload_portfolio read_csv execute_insert request db)) = 200%Z
   \/ status (fst (upload_portfolio read_csv execute_insert request db))
      = 400%Z
      /\ snd (upload_portfolio read_csv execute_insert request db) = db).
Proof.
  unfold upload_portfolio.
  destruct (files_get "file" (Request.files request)) as [file|];
    [|right; split; reflexivity].
  destruct (FileStorage.filename file =? "")%string;
    [right; split; reflexivity|].
  destruct (try_upload read_csv execute_insert file) as [[table df]|e];
    [left | right; split]; reflexivity.
Qed.

End UploadFacts.

(** A frame of three rows uploaded over the five holdings of [sample_db]
    leaves three holdings. *)
Lemma upload_replaces_holdings_witness :
  (length (DB.holdings sample_db) = 5%nat /\ len sample_frame = 3%nat)
  /\ DB.holdings
       (snd (upload_portfolio (sample_read_csv sample_frame)
               sample_execute_insert sample_request sample_db))
     = [ Holding.mk "SMH" "NASDAQ" "USD" 100 250 0 0 0 0;
         Holding.mk "QQQ" "NASDAQ" "USD" 1000 900 0 0 0 0;
         Holding.mk "SPK" "NZX" "USD" 500 0 0 0 0 0 ]
  /\ body (fst (upload_portfolio (sample_read_csv sample_frame)
                  sample_execute_insert sample_request sample_db))
     = Upload.uploaded "Portfolio uploaded successfully" 3.
Proof.
  split; [split; reflexivity|].
  destruct (upload_replaces_holdings (sample_read_csv sample_frame)
              sample_execute_insert sample_request
              (FileStorage.mk "portfolio.csv" "a,b") sample_frame
              [ Holding.mk "SMH" "NASDAQ" "USD" 100 250 0 0 0 0;
                Holding.mk "QQQ" "NASDAQ" "USD" 1000 900 0 0 0 0;
                Holding.mk "SPK" "NZX" "USD" 500 0 0 0 0 0 ])
    as [Hupload _].
  - reflexivity.
  - discriminate.
  - reflexivity.
  - repeat constructor.
  - rewrite (Hupload sample_db). split; reflexivity.
Defined.

Example upload_rejections_sample :
  upload_portfolio (sample_read_csv sample_frame) sample_execute_insert
    (Request.mk [("file", FileStorage.mk "empty.csv" "")]) sample_db
  = (respond 400%Z (Upload.error "No columns to parse from file"), sample_db)
  /\ upload_portfolio (sample_read_csv sample_frame) sample_execute_insert
       (Request.mk [("data", FileStorage.mk "portfolio.csv" "a,b")]) sample_db
     = (respond 400%Z (Upload.error "No file provided"), sample_db)
  /\ upload_portfolio (sample_read_csv sample_frame) sample_execute_insert
       (Request.mk [("file", FileStorage.mk "" "a,b")]) sample_db
     = (respond 400%Z (Upload.error "No file selected"), sample_db).
Proof. repeat split; reflexivity. Qed.

(** An [INSERT] that raises after the [DELETE] and one [INSERT]: the
    transaction is not committed and the five holdings are still there. *)
Example upload_insert_failure_sample :
  upload_portfolio (sample_read_csv sample_frame_missing_ticker)
    sample_execute_insert sample_request sample_db
  = (respond 400%Z (Upload.error "Error binding parameter"), sample_db).
Proof. reflexivity. Qed.

(* ================================================================= *)
(** ** The market-data refresh *)



Lemma inserted_items {A : Type} (items table : list A) :
  fold_left (fun table item => (table ++ [item])%list) items table
  = (table ++ items)%list.
Proof.
  revert table. induction items as [|x items IH]; intros table; simpl.
  - rewrite app_nil_r. reflexivity.
  - rewrite IH, <- app_assoc. reflexivity.
Qed.

Section MarketDataFacts.

Variable ticker_info : string -> result Info.t.

Lemma fetch_one_quote (market_data : list (string * Quote.t))
    (ticker : string) :
  fetch_one ticker_info market_data ticker
  = dict_set market_data ticker (quote_for ticker_info ticker).
Proof.
  unfold fetch_one, quote_for. destruct (ticker_info ticker); reflexivity.
Qed.



End MarketDataFacts.


Example market_data_no_holdings :
  get_market_data sample_ticker_info (DB.mk [holding "XYZ" 1000 0] [])
  = (ok (MarketData.mk [] (Some "No holdings to update")),
     DB.mk [holding "XYZ" 1000 0] []).
Proof. reflexivity. Qed.

(* ================================================================= *)
(** * Further properties *)

(** ** The strict order of binary64 values *)

Lemma SFltb_key (f g : spec_float) :
  SFltb f g = true
  <-> f <> S754_nan /\ g <> S754_nan /\ lex_lt (key f) (key g).
Proof.
  unfold SFltb.
  destruct f as [s|s| |s m e], g as [s'|s'| |s' m' e']; simpl;
    try (split; [discriminate | intros (Hf & Hg & _); congruence]);
    try destruct s; try destruct s'; simpl;
    try (split; [intros _; repeat split; (congruence || lia) | reflexivity]);
    try (split; [discriminate | intros (_ & _ & Hlex); lia]).
  all: change (PosDef.Pos.compare_cont Eq m m') with (Pos.compare m m').
  all: destruct (Z.compare_spec e e'); destruct (Pos.compare_spec m m'); simpl.
  all: split;
    [ first [discriminate | intros _; repeat split; (congruence || lia)]
    | first [reflexivity | intros (_ & _ & Hlex); lia] ].
Qed.

Lemma ltb_key (x y : float) :
  (x <? y) = true
  <-> is_nan x = false /\ is_nan y = false
      /\ lex_lt (key (Prim2SF x)) (key (Prim2SF y)).
Proof.
  rewrite FloatAxioms.ltb_spec, SFltb_key.
  assert (Hnan : forall z, Prim2SF z <> S754_nan <-> is_nan z = false).
  { intros z. rewrite <- is_nan_spec. destruct (is_nan z); split; congruence. }
  rewrite !Hnan. reflexivity.
Qed.

Lemma ltb_trans (x y z : float) :
  (x <? y) = true -> (y <? z) = true -> (x <? z) = true.
Proof.
  rewrite !ltb_key. intros (Hx & _ & Hxy) (_ & Hz & Hyz).
  repeat split; try assumption.
  destruct (key (Prim2SF x)) as [[a1 a2] a3],
           (key (Prim2SF y)) as [[b1 b2] b3],
           (key (Prim2SF z)) as [[c1 c2] c3].
  simpl in *. lia.
Qed.

(* ================================================================= *)
(** ** The decision table of the rule chain *)

(** X1. The recommendation of the chain is decided by the closed test and
    two thresholds alone: CLOSED for an end value of zero with a positive
    start value, else SELL for a return above 50 or below -20, else HOLD.
    The ticker rules choose the action and the rationale, never the
    recommendation. *)
Theorem recommendation_decision_table
    (ticker : string) (start_value end_value rp : float) :
  Advice.recommendation
    (generate_recommendation ticker start_value end_value rp)
  = (if (end_value =? 0) && (0 <? start_value) then "CLOSED"
     else if (50 <? rp) || (rp <? -20) then "SELL"
     else "HOLD")
  /\ forall ticker' : string,
       Advice.recommendation
         (generate_recommendation ticker' start_value end_value rp)
       = Advice.recommendation
           (generate_recommendation ticker start_value end_value rp).
Proof.
  assert (Htable : forall t : string,
             Advice.recommendation
               (generate_recommendation t start_value end_value rp)
             = (if (end_value =? 0) && (0 <? start_value) then "CLOSED"
                else if (50 <? rp) || (rp <? -20) then "SELL"
                else "HOLD")).
  { intros t. unfold generate_recommendation.
    destruct ((end_value =? 0) && (0 <? start_value)); [reflexivity|].
    destruct (str_in t ["SMH"] && (100 <? rp)) eqn:Hsmh.
    { apply andb_prop in Hsmh. destruct Hsmh as [_ Hgt].
      rewrite (ltb_trans 50 100 rp eq_refl Hgt). reflexivity. }
    destruct (str_in t ["QQQ"] && (60 <? rp)) eqn:Hqqq.
    { apply andb_prop in Hqqq. destruct Hqqq as [_ Hgt].
      rewrite (ltb_trans 50 60 rp eq_refl Hgt). reflexivity. }
    destruct (str_in t ["SPK"] && (rp <? -30)) eqn:Hspk.
    { apply andb_prop in Hspk. destruct Hspk as [_ Hlt].
      rewrite (ltb_trans rp (-30) (-20) Hlt eq_refl), orb_true_r.
      reflexivity. }
    destruct (50 <? rp); [reflexivity|].
    destruct (rp <? -20); [reflexivity|].
    destruct (20 <? rp); reflexivity. }
  split; [apply Htable|].
  intros ticker'. rewrite !Htable. reflexivity.
Qed.




(* ================================================================= *)
(** ** What an upload keeps and what it binds *)




Section UploadInvariants.

Variable read_csv : string -> result DataFrame.t.
Variable execute_insert : list pyval -> result Holding.t.

Lemma insert_rows_length (columns : list string) (rows : list (list pyval))
    (table table' : list Holding.t) :
  insert_rows execute_insert columns rows table = Return table' ->
  length table' = (length table + length rows)%nat.
Proof.
  revert table. induction rows as [|row rows IH]; intros table; simpl.
  - intros [= <-]. lia.
  - destruct (execute_insert (insert_params columns row)) as [h|e];
      simpl; [|discriminate].
    intros Hrest. rewrite (IH _ Hrest), length_app. simpl. lia.
Qed.

Lemma try_upload_length (file : FileStorage.t) (table : list Holding.t)
    (df : DataFrame.t) :
  try_upload read_csv execute_insert file = Return (table, df) ->
  length table = len df.
Proof.
  unfold try_upload, len.
  destruct (read_csv (FileStorage.stream file)) as [df0|e]; cbn [bind];
    [|discriminate].
  destruct (insert_rows execute_insert _ _ _) as [t|e] eqn:Hrows;
    cbn [bind]; [|discriminate].
  intros [= <- <-]. apply insert_rows_length in Hrows. exact Hrows.
Qed.

(** The two ways out of the handler. *)
Lemma upload_cases (request : Request.t) (db : DB.t) :
  (exists e : string,
      upload_portfolio read_csv execute_insert request db
      = (respond 400%Z (Upload.error e), db))
  \/ (exists table : list Holding.t,
         upload_portfolio read_csv execute_insert request db
         = (respond 200%Z
              (Upload.uploaded "Portfolio uploaded successfully"
                 (length table)),
            DB.mk table (DB.market_data db))).
Proof.
  unfold upload_portfolio.
  destruct (files_get "file" (Request.files request)) as [file|];
    [|left; eexists; reflexivity].
  destruct (FileStorage.filename file =? "")%string;
    [left; eexists; reflexivity|].
  destruct (try_upload read_csv execute_insert file) as [[table df]|e] eqn:Htry.
  - right. exists table. rewrite (try_upload_length _ _ _ Htry). reflexivity.
  - left. eexists; reflexivity.
Qed.

(** X5. Whatever the request, an upload never writes the [market_data]
    table and answers 200 or 400.  A 400 carries an [error] and leaves the
    whole database as it was, also when an [INSERT] raises after the
    [DELETE]; a 200 reports as [holdings_count] the number of holdings the
    table holds afterwards. *)
Theorem upload_outcomes (request : Request.t) (db : DB.t) :
  let response := fst (upload_portfolio read_csv execute_insert request db) in
  let db' := snd (upload_portfolio read_csv execute_insert request db) in
  DB.market_data db' = DB.market_data db
  /\ ((status response = 400%Z /\ db' = db
       /\ exists e : string, body response = Upload.error e)
      \/ (status response = 200%Z
          /\ body response
             = Upload.uploaded "Portfolio uploaded successfully"
                 (length (DB.holdings db')))).
Proof.
  cbv zeta.
  destruct (upload_cases request db) as [[e ->] | [table ->]];
    (split; [reflexivity|]).
  - left. repeat split. exists e. reflexivity.
  - right. split; reflexivity.
Qed.


(** X7. A file with a header and no row is a successful upload: it reports
    0 holdings and empties the table, after which the portfolio is the
    all-zero summary and there is nothing to recommend. *)
Theorem upload_without_rows
    (request : Request.t) (db : DB.t) (file : FileStorage.t)
    (df : DataFrame.t) :
  files_get "file" (Request.files request) = Some file ->
  FileStorage.filename file <> "" ->
  read_csv (FileStorage.stream file) = Return df ->
  DataFrame.data df = [] ->
  let db' := snd (upload_portfolio read_csv execute_insert request db) in
  fst (upload_portfolio read_csv execute_insert request db)
  = respond 200%Z (Upload.uploaded "Portfolio uploaded successfully" 0)
  /\ DB.holdings db' = []
  /\ get_portfolio db' = respond 200%Z (Portfolio.mk [] (Summary.mk 0 0 0 0 0))
  /\ get_recommendations db'
     = respond 200%Z (Recommendations.mk [] (Some "No holdings found")).
Proof.
  intros Hfile Hname Hparse Hrows. cbv zeta.
  unfold upload_portfolio. rewrite Hfile.
  apply String.eqb_neq in Hname. rewrite Hname.
  assert (Hrenamed : DataFrame.data (rename column_mapping df) = [])
    by exact Hrows.
  unfold try_upload, len. rewrite Hparse. cbn [bind]. cbv zeta.
  rewrite Hrenamed. cbn [insert_rows bind fst snd].
  rewrite Hrenamed.
  repeat split; reflexivity.
Qed.


End UploadInvariants.

(** The header-only frame uploaded over the five holdings of
    [sample_db]. *)
Lemma upload_without_rows_witness :
  (DataFrame.data sample_frame_no_rows = []
   /\ length (DB.holdings sample_db) = 5%nat)
  /\ DB.holdings
       (snd (upload_portfolio (sample_read_csv sample_frame_no_rows)
               sample_execute_insert sample_request sample_db)) = [].
Proof.
  split; [split; reflexivity|].
  destruct (upload_without_rows (sample_read_csv sample_frame_no_rows)
              sample_execute_insert sample_request sample_db
              (FileStorage.mk "portfolio.csv" "a,b") sample_frame_no_rows)
    as (_ & Hempty & _).
  - reflexivity.
  - discriminate.
  - reflexivity.
  - reflexivity.
  - exact Hempty.
Defined.


Lemma row_find_absent (columns : list string) (row : list pyval)
    (key : string) :
  ~ In key columns -> row_find columns row key = [].
Proof.
  revert row. induction columns as [|c cs IH]; intros row Hnot.
  - reflexivity.
  - destruct row as [|v vs]; [reflexivity|]. simpl.
    destruct (String.eqb c key) eqn:Hc.
    + apply String.eqb_eq in Hc. exfalso. apply Hnot. left. exact Hc.
    + apply IH. intros Hin. apply Hnot. right. exact Hin.
Qed.

Lemma insert_params_fields (columns : list string) (row : list pyval) :
  insert_params columns row
  = map (fun field => row_get columns row (fst field) (snd field))
        insert_fields.
Proof. reflexivity. Qed.

(** X9. A field whose name no column of the frame carries is bound to its
    default: the empty text for [ticker] and [exchange], ["USD"] for
    [currency], 0 for each of the six numbers. *)
Theorem missing_column_default
    (columns : list string) (row : list pyval)
    (i : nat) (key : string) (default : pyval) :
  nth_error insert_fields i = Some (key, default) ->
  ~ In key columns ->
  nth_error (insert_params columns row) i = Some default.
Proof.
  intros Hfield Hnot.
  rewrite insert_params_fields, nth_error_map, Hfield. simpl.
  unfold row_get. rewrite (row_find_absent _ _ _ Hnot). reflexivity.
Qed.

(** The second row of [sample_frame] has no currency column. *)
Lemma missing_column_default_witness :
  (nth_error insert_fields 2 = Some ("currency", PStr "USD")
   /\ ~ In "currency"
          (DataFrame.columns (rename column_mapping sample_frame)))
  /\ nth_error
       (insert_params
          (DataFrame.columns (rename column_mapping sample_frame))
          [PStr "QQQ"; PStr "NASDAQ"; PNum 1000; PNum 900; PStr "b"]) 2
     = Some (PStr "USD").
Proof.
  assert (Hnot : ~ In "currency"
                   (DataFrame.columns (rename column_mapping sample_frame))).
  { simpl. intros [H|[H|[H|[H|[H|[]]]]]]; discriminate H. }
  split; [split; [reflexivity | exact Hnot]|].
  apply (missing_column_default _ _ 2 "currency" (PStr "USD") eq_refl Hnot).
Defined.

Lemma row_find_field_columns (columns : list string) (row : list pyval)
    (key : string) :
  is_field key = true ->
  row_find (map fst (field_columns columns row))
           (map snd (field_columns columns row)) key
  = row_find columns row key.
Proof.
  intros Hkey. unfold field_columns.
  revert row. induction columns as [|c cs IH]; intros row.
  - reflexivity.
  - destruct row as [|v vs]; [reflexivity|]. simpl.
    destruct (String.eqb c key) eqn:Hc.
    + apply String.eqb_eq in Hc. subst c. rewrite Hkey. simpl.
      rewrite String.eqb_refl, IH. reflexivity.
    + destruct (is_field c); simpl; [rewrite Hc|]; apply IH.
Qed.

(** X10. Only the columns named after one of the nine fields count:
    dropping every other column of a row, whatever it holds, changes none
    of the values bound to the [INSERT]. *)
Theorem other_columns_ignored (columns : list string) (row : list pyval) :
  insert_params (map fst (field_columns columns row))
                (map snd (field_columns columns row))
  = insert_params columns row.
Proof.
  unfold insert_params, row_get.
  rewrite !row_find_field_columns by reflexivity.
  reflexivity.
Qed.

Lemma mapping_get_column_mapping (label : string) :
  mapping_get column_mapping label = label
  \/ In (mapping_get column_mapping label) (map snd column_mapping).
Proof.
  unfold column_mapping. cbn [mapping_get].
  repeat match goal with
         | |- context [String.eqb ?a label] =>
             destruct (String.eqb a label);
             [right; simpl; tauto|]
         end.
  left. reflexivity.
Qed.

(** X11. Renaming the columns is idempotent: the internal field names are
    not headers of the mapping, so a frame that already carries them, from
    a rename or from the file itself, is kept as it is. *)
Theorem rename_idempotent (df : DataFrame.t) :
  rename column_mapping (rename column_mapping df)
  = rename column_mapping df.
Proof.
  unfold rename. cbn [DataFrame.columns DataFrame.data]. f_equal.
  rewrite map_map. apply map_ext. intros label.
  destruct (mapping_get_column_mapping label) as [Hkept | Hin].
  - rewrite Hkept. exact Hkept.
  - set (renamed := mapping_get column_mapping label) in *.
    clearbody renamed.
    unfold column_mapping in Hin. cbn [map snd In] in Hin.
    destruct Hin as [<-|[<-|[<-|[<-|[<-|[<-|[<-|[<-|[<-|[]]]]]]]]]];
      reflexivity.
Qed.

(* ================================================================= *)
(** ** What a market-data refresh stores *)

Lemma in_distinct (xs : list string) (x : string) :
  In x (distinct xs) <-> In x xs.
Proof.
  induction xs as [|y ys IH]; simpl; [tauto|].
  rewrite filter_In, IH, negb_true_iff, String.eqb_neq.
  destruct (string_dec y x) as [->|Hneq]; [tauto|].
  split; [tauto|]. intros [Heq|Hin]; [tauto|].
  right. split; [exact Hin | congruence].
Qed.

Lemma nodup_distinct (xs : list string) : NoDup (distinct xs).
Proof.
  induction xs as [|y ys IH]; simpl; constructor.
  - rewrite filter_In, String.eqb_refl. intros [_ H]. discriminate H.
  - apply NoDup_filter, IH.
Qed.

Lemma in_select_tickers (holdings : list Holding.t) (ticker : string) :
  In ticker (select_tickers holdings)
  <-> exists h : Holding.t,
        In h holdings /\ Holding.ticker h = ticker
        /\ (0 <? Holding.end_value h) = true.
Proof.
  unfold select_tickers. rewrite in_distinct, in_map_iff.
  split; intros (h & H1 & H2).
  - apply filter_In in H2. exists h. tauto.
  - exists h. rewrite filter_In. tauto.
Qed.

Lemma dict_set_new_key {V : Type} (d : list (string * V)) (key : string)
    (value : V) :
  ~ In key (map fst d) ->
  dict_set d key value = (d ++ [(key, value)])%list.
Proof.
  induction d as [|[k v] d IH]; simpl; intros Hnot; [reflexivity|].
  destruct (String.eqb k key) eqn:Hk.
  - apply String.eqb_eq in Hk. tauto.
  - rewrite IH by tauto. reflexivity.
Qed.

Section MarketDataStore.

Variable ticker_info : string -> result Info.t.

Lemma fetch_loop_items (tickers : list string)
    (market_data : list (string * Quote.t)) :
  NoDup (map fst market_data ++ tickers) ->
  fold_left (fetch_one ticker_info) tickers market_data
  = (market_data
       ++ map (fun t => (t, quote_for ticker_info t)) tickers)%list.
Proof.
  revert market_data.
  induction tickers as [|t tickers IH]; intros market_data Hnodup; simpl.
  - rewrite app_nil_r. reflexivity.
  - rewrite fetch_one_quote, dict_set_new_key.
    + rewrite IH.
      * rewrite <- app_assoc. reflexivity.
      * rewrite map_app, <- app_assoc. exact Hnodup.
    + apply NoDup_remove_2 in Hnodup. intros Hin. apply Hnodup.
      apply in_or_app. left. exact Hin.
Qed.

Lemma fetch_all_items (holdings : list Holding.t) :
  fetch_all ticker_info (select_tickers holdings)
  = map (fun t => (t, quote_for ticker_info t)) (select_tickers holdings).
Proof.
  unfold fetch_all. rewrite fetch_loop_items; [reflexivity|].
  apply nodup_distinct.
Qed.

Lemma get_market_data_cases (db : DB.t) :
  (select_tickers (DB.holdings db) = []
   /\ get_market_data ticker_info db
      = (respond 200%Z (MarketData.mk [] (Some "No holdings to update")),
         db))
  \/ (select_tickers (DB.holdings db) <> []
      /\ get_market_data ticker_info db
         = (respond 200%Z
              (MarketData.mk
                 (map (fun t => (t, quote_for ticker_info t))
                      (select_tickers (DB.holdings db))) None),
            DB.mk (DB.holdings db)
                  (map (fun t => (t, quote_for ticker_info t))
                       (select_tickers (DB.holdings db))))).
Proof.
  unfold get_market_data.
  pose proof (fetch_all_items (DB.holdings db)) as Hitems.
  destruct (select_tickers (DB.holdings db)) as [|t tickers].
  - left. split; reflexivity.
  - right. split; [discriminate|].
    rewrite Hitems, inserted_items. reflexivity.
Qed.

(** X12. The response of a refresh holds one quote for each ticker of a
    holding with a positive end value and no other: no ticker twice, a
    ticker is a key exactly when such a holding exists, and a closed or
    empty position is never looked up. *)
Theorem market_data_keys (db : DB.t) :
  let quotes :=
    MarketData.market_data (body (fst (get_market_data ticker_info db))) in
  NoDup (map fst quotes)
  /\ forall ticker : string,
       In ticker (map fst quotes)
       <-> exists h : Holding.t,
             In h (DB.holdings db) /\ Holding.ticker h = ticker
             /\ (0 <? Holding.end_value h) = true.
Proof.
  cbv zeta.
  assert (Hkeys : map fst (MarketData.market_data
                             (body (fst (get_market_data ticker_info db))))
                  = select_tickers (DB.holdings db)).
  { destruct (get_market_data_cases db) as [[Hnone ->] | [_ ->]];
      cbn [fst body MarketData.market_data].
    - rewrite Hnone. reflexivity.
    - rewrite map_map. cbn [fst]. apply map_id. }
  rewrite Hkeys. split.
  - apply nodup_distinct.
  - intros ticker. apply in_select_tickers.
Qed.

(** X13. When no holding has a positive end value the refresh looks
    nothing up and writes nothing: it answers "No holdings to update" and
    the quotes stored by an earlier refresh stay in the table. *)
Theorem market_data_nothing_to_update (db : DB.t) :
  Forall (fun h => (0 <? Holding.end_value h) = false) (DB.holdings db) ->
  get_market_data ticker_info db
  = (respond 200%Z (MarketData.mk [] (Some "No holdings to update")), db).
Proof.
  intros Hnone.
  destruct (get_market_data_cases db) as [[_ Hcase] | [Hsome _]];
    [exact Hcase|].
  exfalso. apply Hsome.
  destruct (select_tickers (DB.holdings db)) as [|t tickers] eqn:Htickers;
    [reflexivity|].
  assert (Hin : In t (select_tickers (DB.holdings db)))
    by (rewrite Htickers; left; reflexivity).
  apply in_select_tickers in Hin. destruct Hin as (h & Hh & _ & Hpositive).
  rewrite Forall_forall in Hnone. rewrite (Hnone h Hh) in Hpositive.
  discriminate Hpositive.
Qed.


End MarketDataStore.

(** A database with one closed position and a quote from an earlier
    refresh. *)
Lemma market_data_nothing_to_update_witness :
  Forall (fun h => (0 <? Holding.end_value h) = false)
         [holding "XYZ" 1000 0]
  /\ DB.market_data
       (snd (get_market_data sample_ticker_info
               (DB.mk [holding "XYZ" 1000 0] [("XYZ", Quote.mk 7 1 10 0)])))
     = [("XYZ", Quote.mk 7 1 10 0)].
Proof.
  assert (Hclosed : Forall (fun h => (0 <? Holding.end_value h) = false)
                           [holding "XYZ" 1000 0]).
  { constructor; [reflexivity | constructor]. }
  split; [exact Hclosed|].
  rewrite (market_data_nothing_to_update sample_ticker_info
             (DB.mk [holding "XYZ" 1000 0] [("XYZ", Quote.mk 7 1 10 0)])
             Hclosed).
  reflexivity.
Defined.

(* ================================================================= *)
(** ** The charts of the dashboard *)

Lemma palette_cyclic : cyclic palette.
Proof.
  intros i Hi. simpl in Hi. rewrite Nat.mod_small by exact Hi. reflexivity.
Qed.

Lemma cyclic_append (colors : list string) (k : nat) :
  cyclic colors -> (length colors mod 10 = 0)%nat ->
  cyclic (colors ++ firstn k colors).
Proof.
  intros Hcyc Hlen i Hi.
  rewrite length_app, length_firstn in Hi.
  destruct (Nat.lt_ge_cases i (length colors)) as [Hlt|Hge].
  - rewrite nth_error_app1 by exact Hlt. apply Hcyc, Hlt.
  - rewrite nth_error_app2 by exact Hge.
    rewrite nth_error_firstn.
    destruct (Nat.ltb_spec (i - length colors) k) as [_|Hk]; [|lia].
    rewrite Hcyc by lia. f_equal.
    apply Nat.Div0.div_exact in Hlen.
    replace i with (i - length colors + (length colors / 10) * 10)%nat
      at 2 by lia.
    apply eq_sym, Nat.Div0.mod_add.
Qed.

Lemma repeat_colors_cyclic (count fuel : nat) (colors : list string) :
  cyclic colors ->
  (0 < length colors)%nat ->
  (length colors mod 10 = 0 \/ count <= length colors)%nat ->
  (count <= fuel + length colors)%nat ->
  cyclic (repeat_colors fuel colors count)
  /\ (count <= length (repeat_colors fuel colors count))%nat.
Proof.
  revert colors.
  induction fuel as [|fuel IH]; intros colors Hcyc Hpos Hlen Hfuel; simpl;
    destruct (Nat.ltb_spec (length colors) count) as [Hlt|Hge];
    try (split; [exact Hcyc | lia]).
  destruct Hlen as [Hlen|Hlen]; [|lia].
  assert (Hgrown : length (colors ++ firstn (count - length colors) colors)
                   = (length colors
                      + Nat.min (count - length colors) (length colors))%nat)
    by (rewrite length_app, length_firstn; reflexivity).
  apply IH.
  - apply cyclic_append; assumption.
  - lia.
  - rewrite Hgrown.
    destruct (Nat.le_gt_cases (count - length colors) (length colors))
      as [Hle|Hgt].
    + right. lia.
    + left. rewrite Nat.min_r by lia.
      rewrite Nat.Div0.add_mod, Hlen. reflexivity.
  - lia.
Qed.

Lemma generateColors_spec (count : nat) :
  length (generateColors count) = count
  /\ cyclic (generateColors count).
Proof.
  destruct (repeat_colors_cyclic count count palette palette_cyclic)
    as [Hcyc Hlen].
  - simpl. lia.
  - left. reflexivity.
  - lia.
  - unfold generateColors.
    assert (Hcount : length (firstn count (repeat_colors count palette count))
                     = count) by (rewrite length_firstn; lia).
    split; [exact Hcount|].
    intros i Hi. rewrite Hcount in Hi. rewrite nth_error_firstn.
    destruct (Nat.ltb_spec i count) as [_|Hge]; [|lia].
    apply Hcyc. lia.
Qed.

(** X15. [generateColors(count)] returns exactly [count] colours, whatever
    the count, and they repeat the palette of ten: the colour of index [i]
    is the palette colour of index [i mod 10]. *)
Theorem generateColors_cycles_palette (count : nat) :
  length (generateColors count) = count
  /\ forall i : nat,
       (i < count)%nat ->
       nth_error (generateColors count) i = nth_error palette (i mod 10).
Proof.
  destruct (generateColors_spec count) as [Hlen Hcyc].
  split; [exact Hlen|].
  intros i Hi. apply Hcyc. rewrite Hlen. exact Hi.
Qed.

Example generateColors_twelve :
  generateColors 12
  = (palette ++ ["#4cc9f0"; "#7209b7"])%list.
Proof. reflexivity. Qed.

(** X16. The allocation chart drawn from [/api/portfolio] has a label, a
    value and a colour for each of its slices, and its slices are the
    holdings with a positive end value: a ticker is on the chart exactly
    when a market-data refresh looks it up. *)
Theorem allocation_chart_slices (db : DB.t) :
  let chart :=
    allocation_chart (Portfolio.holdings (body (get_portfolio db))) in
  length (Chart.data chart) = length (Chart.labels chart)
  /\ length (Chart.backgroundColor chart) = length (Chart.labels chart)
  /\ forall ticker : string,
       In ticker (Chart.labels chart)
       <-> In ticker (select_tickers (DB.holdings db)).
Proof.
  cbv zeta. rewrite get_portfolio_body. cbv zeta.
  cbn [body ok Portfolio.holdings].
  unfold allocation_chart.
  cbn [Chart.data Chart.labels Chart.backgroundColor].
  split; [rewrite !length_map; reflexivity|].
  split.
  - rewrite length_map.
    apply generateColors_spec.
  - intros ticker. rewrite in_select_tickers, in_map_iff.
    split; intros (h & H1 & H2).
    + apply filter_In in H2. destruct H2 as [Hin Hpositive].
      exists h. repeat split; try assumption.
      apply (Permutation_in h (order_by_perm (DB.holdings db))), Hin.
    + destruct H2 as [Hticker Hpositive].
      exists h. split; [exact Hticker|]. apply filter_In.
      split; [|exact Hpositive].
      apply (Permutation_in h
               (Permutation_sym (order_by_perm (DB.holdings db)))), H1.
Qed.


Example performance_chart_sample :
  Chart.data (performance_chart [holding "NEW" 0 500; holding "SMH" 100 250])
  = [0; 150]
  /\ map Recommendation.return_percentage
         (map recommend [holding "NEW" 0 500; holding "SMH" 100 250])
     = [100; 150].
Proof. split; reflexivity. Qed.

Example updateCharts_before_load : updateCharts None = None.
Proof. reflexivity. Qed.
